(** * Withings Token Guardian: the refresh relay and its two routes

    A shallow embedding of [src/main.py].  The service has one piece of
    logic, [refresh_withings_token], and two FastAPI handlers that call
    it, [refresh_needed] (POST /webhook/refresh-needed) and
    [manual_refresh] (POST /refresh).

    Python values are an inductive type, dicts are insertion-ordered
    association lists, exceptions are values of an error monad that also
    threads the log of observable calls (relay entries and outbound
    POSTs), so that "no outbound call is made" is a statement about the
    final log.  Rendering a body as JSON can fail; it happens where the
    source has it: inside the handler's [try] for a [JSONResponse], and
    after the handler has returned for a returned dict. *)

From Stdlib Require Import String Ascii ZArith List Bool Lia.
From Stdlib Require Import DecimalString DecimalPos DecimalZ.
Import ListNotations.
Local Open Scope string_scope.
Local Open Scope Z_scope.
Local Set Warnings "-register-all".

(* ================================================================== *)
(** ** Python values *)
(* ================================================================== *)

Module Py.

(** The values [response.json()] can produce, which are also the
    values the handlers put in their response bodies.  A float is kept
    as its IEEE-754 binary64 bit pattern.  A [string] stands for a str
    that UTF-8 can encode, given by its encoding; [json()] can also
    return a str that UTF-8 cannot encode (a lone surrogate, from an
    escape such as \ud800), and [PyStrPoints] gives a str by its code
    points for that case.  Dict keys are strs of the first kind. *)
Inductive value : Type :=
| PyNone
| PyBool (b : bool)
| PyInt (n : Z)
| PyFloat (bits : Z)
| PyStr (s : string)
| PyList (l : list value)
| PyDict (d : list (string * value))
| PyStrPoints (points : list Z).

(** A dict with string keys, in insertion order. *)
Definition dict : Type := list (string * value).

(** Exceptions.  Everything here is an instance of [Exception], which
    is what [except Exception] catches; [HTTPException] is FastAPI's,
    the other constructor stands for any other subclass and carries the
    class name and [str(e)].  Signals that are not [Exception]s (task
    cancellation, interpreter exit) are outside this model. *)
Inductive exn : Type :=
| HTTPException (status_code : Z) (detail : string)
| Exception (cls : string) (msg : string).

(** [f"{n}"] for an int. *)
Definition str_int (n : Z) : string := NilZero.string_of_int (Z.to_int n).

(** [str(e)]. *)
Definition str_exn (e : exn) : string :=
  match e with
  | HTTPException sc d => str_int sc ++ ": " ++ d
  | Exception _ m => m
  end.

(** [bool(s)] for a str. *)
Definition truthy_str (s : string) : bool := negb (s =? "")%string.

(** [bool(v)]. *)
Definition truthy (v : value) : bool :=
  match v with
  | PyNone => false
  | PyBool b => b
  | PyInt n => negb (n =? 0)
  | PyFloat bits => negb (Z.land bits (Z.ones 63) =? 0)
  | PyStr s => truthy_str s
  | PyList l => match l with [] => false | _ => true end
  | PyDict d => match d with [] => false | _ => true end
  | PyStrPoints points => match points with [] => false | _ => true end
  end.

(** [type(v).__name__]. *)
Definition type_name (v : value) : string :=
  match v with
  | PyNone => "NoneType"
  | PyBool _ => "bool"
  | PyInt _ => "int"
  | PyFloat _ => "float"
  | PyStr _ => "str"
  | PyList _ => "list"
  | PyDict _ => "dict"
  | PyStrPoints _ => "str"
  end.

(** A float that is neither an infinity nor a NaN: its eleven exponent
    bits are not all ones. *)
Definition float_finite (bits : Z) : bool :=
  negb (Z.land (Z.shiftr bits 52) 2047 =? 2047).

(** A code point in the surrogate range U+D800..U+DFFF. *)
Definition is_surrogate (c : Z) : bool := (55296 <=? c) && (c <=? 57343).

(** Whether Starlette's [JSONResponse.render] accepts a value:
    [json.dumps(..., ensure_ascii=False, allow_nan=False)] refuses an
    infinity or a NaN anywhere inside it, and [.encode("utf-8")]
    refuses a lone surrogate. *)
Fixpoint serialisable (v : value) : bool :=
  match v with
  | PyNone => true
  | PyBool _ => true
  | PyInt _ => true
  | PyFloat bits => float_finite bits
  | PyStr _ => true
  | PyList l => forallb serialisable l
  | PyDict d => forallb (fun kv => serialisable (snd kv)) d
  | PyStrPoints points => forallb (fun c => negb (is_surrogate c)) points
  end.

(** The AttributeError raised by [v.attr] when [v] has no such
    attribute. *)
Definition AttributeError (v : value) (attr : string) : exn :=
  Exception "AttributeError"
    ("'" ++ type_name v ++ "' object has no attribute '" ++ attr ++ "'").

(** [a == b] on optional strings ([None] or a str). *)
Definition opt_str_eqb (a b : option string) : bool :=
  match a, b with
  | None, None => true
  | Some x, Some y => (x =? y)%string
  | _, _ => false
  end.

(** Key lookup in a dict. *)
Fixpoint lookup (k : string) (d : dict) : option value :=
  match d with
  | [] => None
  | (k', v) :: d' => if (k' =? k)%string then Some v else lookup k d'
  end.

(** [d.get(k)] on a dict: the value, or [None]. *)
Definition dict_get (d : dict) (k : string) : value :=
  match lookup k d with
  | Some v => v
  | None => PyNone
  end.


End Py.
Export Py.

(* ================================================================== *)
(** ** Effects: exceptions and the log of observable calls *)
(* ================================================================== *)

(** One outbound request, as [client.post] receives it. *)
Record outbound_call : Type := {
  url : string;
  headers : list (string * string);
  timeout : Z  (* seconds; the client is built with timeout=30.0 *)
}.

(** What a test double would record: an entry into the relay, and every
    POST handed to the HTTP client. *)
Inductive event : Type :=
| RelayInvoked
| OutboundPost (c : outbound_call).

Inductive result (A : Type) : Type :=
| Ok (a : A)
| Raise (e : exn).
Arguments Ok {A} a.
Arguments Raise {A} e.

(** A computation reads the log so far and returns a value or a raised
    exception together with the extended log.  The log survives a
    raise: a call that was made stays made. *)
Definition M (A : Type) : Type := list event -> result A * list event.

Definition ret {A} (a : A) : M A := fun log => (Ok a, log).

Definition raise {A} (e : exn) : M A := fun log => (Raise e, log).

Definition bind {A B} (m : M A) (k : A -> M B) : M B :=
  fun log =>
    match m log with
    | (Ok a, log') => k a log'
    | (Raise e, log') => (Raise e, log')
    end.

(** [try: m  except Exception as e: h e]. *)
Definition try_except {A} (m : M A) (h : exn -> M A) : M A :=
  fun log =>
    match m log with
    | (Ok a, log') => (Ok a, log')
    | (Raise e, log') => h e log'
    end.

Definition emit (ev : event) : M unit := fun log => (Ok tt, (log ++ [ev])%list).

Definition lift {A} (r : result A) : M A := fun log => (r, log).

Declare Scope py_scope.
Delimit Scope py_scope with py.
Notation "x <- m ;; k" := (bind m (fun x => k))
  (at level 100, m at next level, right associativity) : py_scope.
Notation "m ;;; k" := (bind m (fun _ => k))
  (at level 100, right associativity) : py_scope.
Local Open Scope py_scope.

(** Number of outbound POSTs in a log. *)
Fixpoint outbound_count (log : list event) : nat :=
  match log with
  | [] => O
  | OutboundPost _ :: l => S (outbound_count l)
  | RelayInvoked :: l => outbound_count l
  end.

(** Number of relay entries in a log. *)
Fixpoint relay_count (log : list event) : nat :=
  match log with
  | [] => O
  | RelayInvoked :: l => S (relay_count l)
  | OutboundPost _ :: l => relay_count l
  end.

(* ================================================================== *)
(** ** Configuration and the outside world *)
(* ================================================================== *)

(** The module-level settings read from the environment at import time
    (lines 26-28).  The Railway settings are read and never used by the
    relay or by either POST route. *)
Record config : Type := {
  WITHINGS_MCP_URL : string;
  ADMIN_API_TOKEN : string;
  GUARDIAN_SECRET : string
}.

(** An [httpx.Response] as the relay uses it: [status_code], [text], and
    what calling [json()] does (a parsed value, or a raised decoding
    error). *)
Record response : Type := {
  status_code : Z;
  text : string;
  json : result value
}.

(** What [await client.post(...)] does: it raises (DNS, refused
    connection, timeout, TLS, protocol error) or returns a response. *)
Inductive post_outcome : Type :=
| PostRaises (e : exn)
| PostReturns (r : response).

(** The world a request is served in: the upstream behind the HTTP
    client, the clock read by [datetime.utcnow().isoformat()], and the
    exception the JSON library raises for a body it cannot render (a
    ValueError of [json.dumps] or a UnicodeEncodeError of [encode];
    which one, and its text, are the library's). *)
Record env : Type := {
  upstream : outbound_call -> post_outcome;
  utcnow_isoformat : string;
  render_error : list (string * value) -> exn
}.

(** [await client.post(url, headers=...)]: the call is logged, then the
    upstream answers or the transport raises. *)
Definition client_post (w : env) (c : outbound_call) : M response :=
  emit (OutboundPost c) ;;;
  match upstream w c with
  | PostRaises e => raise e
  | PostReturns r => ret r
  end.

(** [data.get(k)] where [data] is whatever [response.json()] returned:
    only a dict has a [get]. *)
Definition value_get (data : value) (k : string) : M value :=
  match data with
  | PyDict d => ret (dict_get d k)
  | _ => raise (AttributeError data "get")
  end.

(** [d[k]] on a dict; [str(KeyError(k))] is [repr(k)]. *)
Definition dict_getitem (d : dict) (k : string) : M value :=
  match lookup k d with
  | Some v => ret v
  | None => raise (Exception "KeyError" ("'" ++ k ++ "'"))
  end.

(* ================================================================== *)
(** ** The refresh relay (lines 168-209) *)
(* ================================================================== *)

(** The request the relay sends (lines 182-186). *)
Definition refresh_call (cfg : config) : outbound_call :=
  {| url := WITHINGS_MCP_URL cfg ++ "/admin/token/refresh";
     headers := [("X-Admin-Token", ADMIN_API_TOKEN cfg)];
     timeout := 30 |}.

(** [refresh_withings_token].  The logger calls are dropped except for
    the evaluation of their arguments, which is kept where it can raise
    (line 190 evaluates [data.get('expires_at')] before the return
    value is built).  [RelayInvoked] marks the entry into the function. *)
Definition refresh_withings_token (cfg : config) (w : env) : M dict :=
  emit RelayInvoked ;;;
  if negb (truthy_str (ADMIN_API_TOKEN cfg)) then
    ret [("success", PyBool false);
         ("error", PyStr "ADMIN_API_TOKEN not configured")]
  else
    try_except
      (response <- client_post w (refresh_call cfg) ;;
       if status_code response =? 200 then
         data <- lift (json response) ;;
         _ <- value_get data "expires_at" ;;
         expires_at <- value_get data "expires_at" ;;
         expires_in_seconds <- value_get data "expires_in_seconds" ;;
         ret [("success", PyBool true);
              ("expires_at", expires_at);
              ("expires_in_seconds", expires_in_seconds)]
       else
         let error_text := text response in
         ret [("success", PyBool false);
              ("error", PyStr ("HTTP " ++ str_int (status_code response)
                                 ++ ": " ++ error_text))])
      (fun e =>
         ret [("success", PyBool false);
              ("error", PyStr (str_exn e))]).

(* ================================================================== *)
(** ** The two POST routes *)
(* ================================================================== *)

(** The peer address of a request; Starlette's [request.client] is
    [None] when the server supplies no client address. *)
Record address : Type := { host : string; port : Z }.

Record request : Type := { client : option address }.

(** [request.client.host]. *)
Definition request_client_host (r : request) : M string :=
  match client r with
  | Some a => ret (host a)
  | None => raise (AttributeError PyNone "host")
  end.

(** What a handler hands back to FastAPI: a plain dict, still to be
    rendered, or a [JSONResponse], whose body was rendered when it was
    built. *)
Inductive handler_return : Type :=
| ReturnDict (d : dict)
| JSONResponse (status_code : Z) (content : dict).

(** [JSONResponse(status_code=..., content=...)]: Starlette renders the
    body in the constructor, so building the response raises, at the
    place where it is built, when the content cannot be rendered. *)
Definition JSONResponse_init (w : env) (status_code : Z) (content : dict)
    : M handler_return :=
  if serialisable (PyDict content) then ret (JSONResponse status_code content)
  else raise (render_error w content).

Section Routes.

(** The handlers are written over the relay they await, so that they
    can also be studied against a relay that misbehaves. *)
Variable cfg : config.
Variable w : env.
Variable relay : M dict.

(** [refresh_needed] (lines 60-118). *)
Definition refresh_needed_with (req : request)
    (x_guardian_secret : option string) : M handler_return :=
  (if truthy_str (GUARDIAN_SECRET cfg)
      && negb (opt_str_eqb x_guardian_secret (Some (GUARDIAN_SECRET cfg)))
   then
     _ <- request_client_host req ;;
     raise (HTTPException 401 "Invalid guardian secret")
   else ret tt) ;;;
  try_except
    (refresh_result <- relay ;;
     success <- dict_getitem refresh_result "success" ;;
     if truthy success then
       ret (ReturnDict
              [("success", PyBool true);
               ("message", PyStr "Token refreshed successfully");
               ("expires_at", dict_get refresh_result "expires_at");
               ("timestamp", PyStr (utcnow_isoformat w))])
     else
       JSONResponse_init w 500
              [("success", PyBool false);
               ("message", PyStr "Token refresh failed");
               ("error", dict_get refresh_result "error");
               ("timestamp", PyStr (utcnow_isoformat w))])
    (fun e =>
       JSONResponse_init w 500
              [("success", PyBool false);
               ("message", PyStr "Token refresh exception");
               ("error", PyStr (str_exn e));
               ("timestamp", PyStr (utcnow_isoformat w))]).

(** [manual_refresh] (lines 121-165). *)
Definition manual_refresh_with (x_admin_token : option string)
    : M handler_return :=
  (if truthy_str (GUARDIAN_SECRET cfg)
      && negb (opt_str_eqb x_admin_token (Some (GUARDIAN_SECRET cfg)))
   then raise (HTTPException 401 "Invalid admin token")
   else ret tt) ;;;
  try_except
    (refresh_result <- relay ;;
     success <- dict_getitem refresh_result "success" ;;
     if truthy success then
       ret (ReturnDict
              [("success", PyBool true);
               ("message", PyStr "Token refreshed successfully");
               ("expires_at", dict_get refresh_result "expires_at");
               ("timestamp", PyStr (utcnow_isoformat w))])
     else
       JSONResponse_init w 500
              [("success", PyBool false);
               ("message", PyStr "Token refresh failed");
               ("error", dict_get refresh_result "error")])
    (fun e =>
       JSONResponse_init w 500
              [("success", PyBool false);
               ("message", PyStr "Exception during refresh");
               ("error", PyStr (str_exn e))]).

End Routes.

(** The routes as deployed: they await [refresh_withings_token]. *)
Definition refresh_needed (cfg : config) (w : env) (req : request)
    (x_guardian_secret : option string) : M handler_return :=
  refresh_needed_with cfg w (refresh_withings_token cfg w) req x_guardian_secret.

Definition manual_refresh (cfg : config) (w : env)
    (x_admin_token : option string) : M handler_return :=
  manual_refresh_with cfg w (refresh_withings_token cfg w) x_admin_token.

(** *** What the client sees *)

Inductive http_body : Type :=
| JsonBody (d : dict)
| TextBody (s : string).

Record http_response : Type := { status : Z; body : http_body }.

(** FastAPI's treatment of a handler's outcome.  A returned dict is
    rendered after the handler has returned, outside its [try]: it is a
    200 when it can be rendered, and otherwise the rendering error is
    the server's plain 500.  A [JSONResponse] is sent as built, an
    [HTTPException] becomes its status with body [{"detail": ...}], and
    any other exception that leaves the handler is the server's plain
    500. *)
Definition respond (r : result handler_return) : http_response :=
  match r with
  | Ok (ReturnDict d) =>
      if serialisable (PyDict d) then {| status := 200; body := JsonBody d |}
      else {| status := 500; body := TextBody "Internal Server Error" |}
  | Ok (JSONResponse sc d) => {| status := sc; body := JsonBody d |}
  | Raise (HTTPException sc detail) =>
      {| status := sc; body := JsonBody [("detail", PyStr detail)] |}
  | Raise (Exception _ _) =>
      {| status := 500; body := TextBody "Internal Server Error" |}
  end.

(** Serving one request, from a log [log]: the response and the log
    afterwards. *)
Definition serve_refresh_needed (cfg : config) (w : env) (req : request)
    (x_guardian_secret : option string) (log : list event)
    : http_response * list event :=
  let (r, log') := refresh_needed cfg w req x_guardian_secret log in
  (respond r, log').

Definition serve_manual_refresh (cfg : config) (w : env)
    (x_admin_token : option string) (log : list event)
    : http_response * list event :=
  let (r, log') := manual_refresh cfg w x_admin_token log in
  (respond r, log').

(** The [message] field of a JSON response body, if any. *)
Definition message_of (r : http_response) : option value :=
  match body r with
  | JsonBody d => lookup "message" d
  | TextBody _ => None
  end.

(** A caller passes the secret check of either route when no secret is
    configured or the header carries exactly the configured secret. *)
Definition authorized (cfg : config) (header : option string) : Prop :=
  GUARDIAN_SECRET cfg = "" \/ header = Some (GUARDIAN_SECRET cfg).

(** The invariant of a RefreshResult: [success] is a boolean, [error] is
    absent when it is true and present when it is false. *)
Definition refresh_result_invariant (d : dict) : bool :=
  match lookup "success" d, lookup "error" d with
  | Some (PyBool true), None => true
  | Some (PyBool false), Some _ => true
  | _, _ => false
  end.

(** Every outbound POST in a list of events carries the admin token, and
    nothing else, in its headers. *)
Definition carries_admin_token (cfg : config) (ev : event) : Prop :=
  match ev with
  | RelayInvoked => True
  | OutboundPost c => headers c = [("X-Admin-Token", ADMIN_API_TOKEN cfg)]
  end.

(** The same configuration with another admin token. *)
Definition with_admin_token (t : string) (cfg : config) : config :=
  {| WITHINGS_MCP_URL := WITHINGS_MCP_URL cfg;
     ADMIN_API_TOKEN := t;
     GUARDIAN_SECRET := GUARDIAN_SECRET cfg |}.





(* ================================================================== *)
(** ** Start-up settings and the two GET routes *)
(* ================================================================== *)

(** [os.environ]: the variables of the process, by name. *)
Definition environ : Type := list (string * string).

(** Lookup of a variable. *)
Fixpoint environ_get (e : environ) (k : string) : option string :=
  match e with
  | [] => None
  | (k', v) :: e' => if (k' =? k)%string then Some v else environ_get e' k
  end.

(** [os.getenv(k, default)]: the value when the variable is set, the
    empty string included, and the default only when it is not set. *)
Definition getenv (e : environ) (k default : string) : string :=
  match environ_get e k with
  | Some v => v
  | None => default
  end.

(** All six module-level settings of lines 26-31: the three the POST
    routes use, and the Railway ones. *)
Record settings : Type := {
  core : config;
  RAILWAY_TOKEN : string;
  RAILWAY_PROJECT_ID : string;
  RAILWAY_SERVICE_ID : string
}.

(** Lines 26-31, run once at import. *)
Definition load_settings (e : environ) : settings :=
  {| core :=
       {| WITHINGS_MCP_URL :=
            getenv e "WITHINGS_MCP_URL"
              "https://withings-mcp-production.up.railway.app";
          ADMIN_API_TOKEN := getenv e "ADMIN_API_TOKEN" "";
          GUARDIAN_SECRET := getenv e "GUARDIAN_SECRET" "" |};
     RAILWAY_TOKEN := getenv e "RAILWAY_TOKEN" "";
     RAILWAY_PROJECT_ID := getenv e "RAILWAY_PROJECT_ID" "";
     RAILWAY_SERVICE_ID := getenv e "RAILWAY_SERVICE_ID" "" |}.

(** [root] (lines 34-42). *)
Definition root (s : settings) (w : env) : M handler_return :=
  ret (ReturnDict
         [("service", PyStr "Withings Token Guardian MCP");
          ("status", PyStr "online");
          ("timestamp", PyStr (utcnow_isoformat w));
          ("withings_mcp_url", PyStr (WITHINGS_MCP_URL (core s)))]).

(** [health] (lines 45-57). *)
Definition health (s : settings) (w : env) : M handler_return :=
  ret (ReturnDict
         [("status", PyStr "healthy");
          ("config",
             PyDict
               [("withings_mcp_configured",
                   PyBool (truthy_str (WITHINGS_MCP_URL (core s))));
                ("admin_token_configured",
                   PyBool (truthy_str (ADMIN_API_TOKEN (core s))));
                ("guardian_secret_configured",
                   PyBool (truthy_str (GUARDIAN_SECRET (core s))));
                ("railway_token_configured",
                   PyBool (truthy_str (RAILWAY_TOKEN s)))]);
          ("timestamp", PyStr (utcnow_isoformat w))]).

(** Serving the GET routes. *)
Definition serve_root (s : settings) (w : env) (log : list event)
    : http_response * list event :=
  let (r, log') := root s w log in (respond r, log').

Definition serve_health (s : settings) (w : env) (log : list event)
    : http_response * list event :=
  let (r, log') := health s w log in (respond r, log').

(** One flag of the [config] object of a /health body. *)
Definition health_flag (r : http_response) (k : string) : option value :=
  match body r with
  | JsonBody d =>
      match lookup "config" d with
      | Some (PyDict c) => lookup k c
      | _ => None
      end
  | TextBody _ => None
  end.

(** A field of a JSON response body. *)
Definition body_field (r : http_response) (k : string) : option value :=
  match body r with
  | JsonBody d => lookup k d
  | TextBody _ => None
  end.

(** The same configuration with another guardian secret. *)
Definition with_guardian_secret (t : string) (cfg : config) : config :=
  {| WITHINGS_MCP_URL := WITHINGS_MCP_URL cfg;
     ADMIN_API_TOKEN := ADMIN_API_TOKEN cfg;
     GUARDIAN_SECRET := t |}.

(** No character of the string is a colon. *)
Fixpoint colon_free (s : string) : bool :=
  match s with
  | EmptyString => true
  | String c s' => negb (Ascii.eqb c ":") && colon_free s'
  end.

(** The error text the relay builds for a non-200 answer (line 201). *)
Definition http_error (status : Z) (body_text : string) : string :=
  "HTTP " ++ str_int status ++ ": " ++ body_text.

(* ================================================================== *)
(** ** Sample configurations and upstreams *)
(* ================================================================== *)

Module Sample.

Definition cfg : config :=
  {| WITHINGS_MCP_URL := "https://withings-mcp.example";
     ADMIN_API_TOKEN := "admin-token";
     GUARDIAN_SECRET := "s3cret" |}.

Definition cfg_no_secret : config :=
  {| WITHINGS_MCP_URL := "https://withings-mcp.example";
     ADMIN_API_TOKEN := "admin-token";
     GUARDIAN_SECRET := "" |}.

Definition cfg_no_token : config :=
  {| WITHINGS_MCP_URL := "https://withings-mcp.example";
     ADMIN_API_TOKEN := "";
     GUARDIAN_SECRET := "s3cret" |}.

(** The ValueError of [json.dumps] for a float that is not finite (its
    text varies between Python versions). *)
Definition nan_error (content : dict) : exn :=
  Exception "ValueError" "Out of range float values are not JSON compliant".

Definition answering (r : response) : env :=
  {| upstream := fun _ => PostReturns r;
     utcnow_isoformat := "2025-01-01T00:00:00";
     render_error := nan_error |}.

Definition unreachable : env :=
  {| upstream := fun _ =>
       PostRaises (Exception "ConnectError" "All connection attempts failed");
     utcnow_isoformat := "2025-01-01T00:00:00";
     render_error := nan_error |}.

Definition r503 : response :=
  {| status_code := 503;
     text := "service unavailable";
     json := Raise (Exception "JSONDecodeError"
                      "Expecting value: line 1 column 1 (char 0)") |}.

(** The double quote, to spell JSON text. *)
Definition dq : string := String (ascii_of_nat 34) EmptyString.

Definition r200 : response :=
  {| status_code := 200;
     text := "{" ++ dq ++ "expires_at" ++ dq ++ ":" ++ dq
               ++ "2025-01-01T00:00:00Z" ++ dq ++ "," ++ dq
               ++ "expires_in_seconds" ++ dq ++ ":3600}";
     json := Ok (PyDict [("expires_at", PyStr "2025-01-01T00:00:00Z");
                         ("expires_in_seconds", PyInt 3600)]) |}.

Definition r200_array : response :=
  {| status_code := 200; text := "[]"; json := Ok (PyList []) |}.

Definition peer : request :=
  {| client := Some {| host := "203.0.113.7"; port := 44312 |} |}.

Definition no_peer : request := {| client := None |}.


End Sample.

(** Process environments. *)
Module Deploy.

(** Only the upstream URL is set. *)
Definition url_only : environ :=
  [("WITHINGS_MCP_URL", "https://withings-mcp.example")].

(** Everything the service reads is set. *)
Definition full : environ :=
  [("PORT", "8081");
   ("GUARDIAN_SECRET", "s3cret");
   ("ADMIN_API_TOKEN", "admin-token");
   ("RAILWAY_TOKEN", "rw-token")].

(** The upstream URL is set to the empty string. *)
Definition blank_url : environ :=
  [("WITHINGS_MCP_URL", ""); ("ADMIN_API_TOKEN", "admin-token")].

Definition connect_error : exn :=
  Exception "ConnectError" "All connection attempts failed".

Definition r200_string : response :=
  {| status_code := 200;
     text := Sample.dq ++ "ok" ++ Sample.dq;
     json := Ok (PyStr "ok") |}.

(** The bit pattern of the NaN that [json()] returns for the token NaN. *)
Definition nan_bits : Z := 9221120237041090560.


(** A relay result whose [error] is a NaN, which the deployed relay
    never returns. *)
Definition nan_failure : M dict :=
  ret [("success", PyBool false); ("error", PyFloat nan_bits)].


End Deploy.

(* ================================================================== *)
(** ** Basic facts *)
(* ================================================================== *)

Lemma truthy_str_false (s : string) : truthy_str s = false <-> s = "".
Proof.
  unfold truthy_str. destruct (String.eqb_spec s ""); simpl; split;
    intros; congruence.
Qed.

Lemma truthy_str_true (s : string) : truthy_str s = true <-> s <> "".
Proof.
  unfold truthy_str. destruct (String.eqb_spec s ""); simpl; split;
    intros; congruence.
Qed.

Lemma opt_str_eqb_eq (a b : option string) : opt_str_eqb a b = true <-> a = b.
Proof.
  destruct a as [x|], b as [y|]; simpl; try (split; congruence).
  destruct (String.eqb_spec x y); split; congruence.
Qed.

Lemma outbound_count_app (l1 l2 : list event) :
  outbound_count (l1 ++ l2)%list = (outbound_count l1 + outbound_count l2)%nat.
Proof.
  induction l1 as [|[|c] l1 IH]; simpl; auto.
Qed.

Lemma relay_count_app (l1 l2 : list event) :
  relay_count (l1 ++ l2)%list = (relay_count l1 + relay_count l2)%nat.
Proof.
  induction l1 as [|[|c] l1 IH]; simpl; auto.
Qed.

(** The secret check, decided. *)
Lemma secret_check_passes (cfg : config) (header : option string) :
  authorized cfg header ->
  truthy_str (GUARDIAN_SECRET cfg)
    && negb (opt_str_eqb header (Some (GUARDIAN_SECRET cfg))) = false.
Proof.
  intros [H | H].
  - apply truthy_str_false in H. rewrite H. reflexivity.
  - apply opt_str_eqb_eq in H. rewrite H. apply andb_false_r.
Qed.

Lemma secret_check_fails (cfg : config) (header : option string) :
  GUARDIAN_SECRET cfg <> "" ->
  header <> Some (GUARDIAN_SECRET cfg) ->
  truthy_str (GUARDIAN_SECRET cfg)
    && negb (opt_str_eqb header (Some (GUARDIAN_SECRET cfg))) = true.
Proof.
  intros Hs Hh. apply truthy_str_true in Hs. rewrite Hs. simpl.
  destruct (opt_str_eqb header (Some (GUARDIAN_SECRET cfg))) eqn:E; auto.
  apply opt_str_eqb_eq in E. contradiction.
Qed.

(** Unfolding the monad in a goal. *)
Ltac run_monad :=
  unfold bind, try_except, ret, raise, emit, lift in *; simpl in *.

(** The relay with no admin token. *)
Lemma relay_run_no_token (cfg : config) (w : env) (log : list event) :
  ADMIN_API_TOKEN cfg = "" ->
  refresh_withings_token cfg w log =
    (Ok [("success", PyBool false);
         ("error", PyStr "ADMIN_API_TOKEN not configured")],
     (log ++ [RelayInvoked])%list).
Proof.
  intros H. unfold refresh_withings_token. run_monad.
  rewrite H. reflexivity.
Qed.

(** The relay with an admin token, by what the upstream does. *)
Lemma relay_run_token (cfg : config) (w : env) (log : list event) :
  ADMIN_API_TOKEN cfg <> "" ->
  refresh_withings_token cfg w log =
    (Ok match upstream w (refresh_call cfg) with
        | PostRaises e =>
            [("success", PyBool false); ("error", PyStr (str_exn e))]
        | PostReturns r =>
            if status_code r =? 200 then
              match json r with
              | Raise e =>
                  [("success", PyBool false); ("error", PyStr (str_exn e))]
              | Ok (PyDict d) =>
                  [("success", PyBool true);
                   ("expires_at", dict_get d "expires_at");
                   ("expires_in_seconds", dict_get d "expires_in_seconds")]
              | Ok v =>
                  [("success", PyBool false);
                   ("error", PyStr (str_exn (AttributeError v "get")))]
              end
            else
              [("success", PyBool false);
               ("error", PyStr ("HTTP " ++ str_int (status_code r)
                                  ++ ": " ++ text r))]
        end,
     (log ++ [RelayInvoked; OutboundPost (refresh_call cfg)])%list).
Proof.
  intros H. apply truthy_str_true in H.
  unfold refresh_withings_token, client_post. run_monad.
  rewrite H. simpl. rewrite <- app_assoc. simpl.
  destruct (upstream w (refresh_call cfg)) as [e | r]; [reflexivity|].
  destruct (status_code r =? 200); [|reflexivity].
  destruct (json r) as [v | e]; [|reflexivity].
  destruct v; reflexivity.
Qed.

(** The relay always returns, its result satisfies the invariant, and it
    adds to the log its own entry followed by at most one POST. *)
Lemma relay_returns (cfg : config) (w : env) (log : list event) :
  exists d calls,
    refresh_withings_token cfg w log
      = (Ok d, (log ++ RelayInvoked :: calls)%list) /\
    refresh_result_invariant d = true /\
    (calls = [] \/ calls = [OutboundPost (refresh_call cfg)]).
Proof.
  destruct (String.eqb_spec (ADMIN_API_TOKEN cfg) "") as [H | H].
  - eexists; exists (@nil event). rewrite (relay_run_no_token cfg w log H). auto.
  - eexists; exists [OutboundPost (refresh_call cfg)]. rewrite (relay_run_token cfg w log H).
    split; [reflexivity|]. split; [|auto].
    destruct (upstream w (refresh_call cfg)) as [e | r]; [reflexivity|].
    destruct (status_code r =? 200); [|reflexivity].
    destruct (json r) as [v | e]; [|reflexivity].
    destruct v; reflexivity.
Qed.

(** *** The routes after the secret check *)

(** An authorized webhook request, by what the awaited relay does. *)
Lemma refresh_needed_with_run (cfg : config) (w : env) (relay : M dict)
    (req : request) (header : option string) (log : list event) :
  authorized cfg header ->
  refresh_needed_with cfg w relay req header log =
    match relay log with
    | (Ok d, log') =>
        match lookup "success" d with
        | Some v =>
            if truthy v then
              (Ok (ReturnDict
                     [("success", PyBool true);
                      ("message", PyStr "Token refreshed successfully");
                      ("expires_at", dict_get d "expires_at");
                      ("timestamp", PyStr (utcnow_isoformat w))]), log')
            else if serialisable (dict_get d "error") then
              (Ok (JSONResponse 500
                     [("success", PyBool false);
                      ("message", PyStr "Token refresh failed");
                      ("error", dict_get d "error");
                      ("timestamp", PyStr (utcnow_isoformat w))]), log')
            else
              (Ok (JSONResponse 500
                     [("success", PyBool false);
                      ("message", PyStr "Token refresh exception");
                      ("error",
                         PyStr (str_exn
                                  (render_error w
                                     [("success", PyBool false);
                                      ("message", PyStr "Token refresh failed");
                                      ("error", dict_get d "error");
                                      ("timestamp",
                                         PyStr (utcnow_isoformat w))])));
                      ("timestamp", PyStr (utcnow_isoformat w))]), log')
        | None =>
            (Ok (JSONResponse 500
                   [("success", PyBool false);
                    ("message", PyStr "Token refresh exception");
                    ("error", PyStr "'success'");
                    ("timestamp", PyStr (utcnow_isoformat w))]), log')
        end
    | (Raise e, log') =>
        (Ok (JSONResponse 500
               [("success", PyBool false);
                ("message", PyStr "Token refresh exception");
                ("error", PyStr (str_exn e));
                ("timestamp", PyStr (utcnow_isoformat w))]), log')
    end.
Proof.
  intros Ha. unfold refresh_needed_with.
  rewrite (secret_check_passes _ _ Ha).
  unfold dict_getitem, JSONResponse_init. run_monad.
  destruct (relay log) as [[d | e] log']; [|reflexivity].
  destruct (lookup "success" d) as [v|]; [|reflexivity].
  destruct (truthy v); [reflexivity|].
  destruct (serialisable (dict_get d "error")); reflexivity.
Qed.

(** An authorized manual request, by what the awaited relay does. *)
Lemma manual_refresh_with_run (cfg : config) (w : env) (relay : M dict)
    (header : option string) (log : list event) :
  authorized cfg header ->
  manual_refresh_with cfg w relay header log =
    match relay log with
    | (Ok d, log') =>
        match lookup "success" d with
        | Some v =>
            if truthy v then
              (Ok (ReturnDict
                     [("success", PyBool true);
                      ("message", PyStr "Token refreshed successfully");
                      ("expires_at", dict_get d "expires_at");
                      ("timestamp", PyStr (utcnow_isoformat w))]), log')
            else if serialisable (dict_get d "error") then
              (Ok (JSONResponse 500
                     [("success", PyBool false);
                      ("message", PyStr "Token refresh failed");
                      ("error", dict_get d "error")]), log')
            else
              (Ok (JSONResponse 500
                     [("success", PyBool false);
                      ("message", PyStr "Exception during refresh");
                      ("error",
                         PyStr (str_exn
                                  (render_error w
                                     [("success", PyBool false);
                                      ("message", PyStr "Token refresh failed");
                                      ("error", dict_get d "error")])))]),
               log')
        | None =>
            (Ok (JSONResponse 500
                   [("success", PyBool false);
                    ("message", PyStr "Exception during refresh");
                    ("error", PyStr "'success'")]), log')
        end
    | (Raise e, log') =>
        (Ok (JSONResponse 500
               [("success", PyBool false);
                ("message", PyStr "Exception during refresh");
                ("error", PyStr (str_exn e))]), log')
    end.
Proof.
  intros Ha. unfold manual_refresh_with.
  rewrite (secret_check_passes _ _ Ha).
  unfold dict_getitem, JSONResponse_init. run_monad.
  destruct (relay log) as [[d | e] log']; [|reflexivity].
  destruct (lookup "success" d) as [v|]; [|reflexivity].
  destruct (truthy v); [reflexivity|].
  destruct (serialisable (dict_get d "error")); reflexivity.
Qed.

(** After the secret check a handler adds nothing to the log beyond what
    the awaited relay adds. *)
Lemma snd_manual_refresh_with (cfg : config) (w : env) (relay : M dict)
    (header : option string) (log : list event) :
  authorized cfg header ->
  snd (manual_refresh_with cfg w relay header log) = snd (relay log).
Proof.
  intros Ha. rewrite (manual_refresh_with_run cfg w relay header log Ha).
  destruct (relay log) as [[d | e] log']; [|reflexivity].
  destruct (lookup "success" d) as [v|]; [|reflexivity].
  destruct (truthy v); [reflexivity|].
  destruct (serialisable (dict_get d "error")); reflexivity.
Qed.

Lemma snd_refresh_needed_with (cfg : config) (w : env) (relay : M dict)
    (req : request) (header : option string) (log : list event) :
  authorized cfg header ->
  snd (refresh_needed_with cfg w relay req header log) = snd (relay log).
Proof.
  intros Ha. rewrite (refresh_needed_with_run cfg w relay req header log Ha).
  destruct (relay log) as [[d | e] log']; [|reflexivity].
  destruct (lookup "success" d) as [v|]; [|reflexivity].
  destruct (truthy v); [reflexivity|].
  destruct (serialisable (dict_get d "error")); reflexivity.
Qed.

(** A rejected webhook request: the log line of line 79 reads
    [request.client.host] first, then line 80 raises the 401.  The relay
    is not reached either way. *)
Lemma refresh_needed_with_rejected (cfg : config) (w : env) (relay : M dict)
    (req : request) (header : option string) (log : list event) :
  GUARDIAN_SECRET cfg <> "" ->
  header <> Some (GUARDIAN_SECRET cfg) ->
  refresh_needed_with cfg w relay req header log =
    (match client req with
     | Some _ => Raise (HTTPException 401 "Invalid guardian secret")
     | None => Raise (AttributeError PyNone "host")
     end, log).
Proof.
  intros Hs Hh. unfold refresh_needed_with.
  rewrite (secret_check_fails _ _ Hs Hh).
  unfold request_client_host. run_monad.
  destruct (client req); reflexivity.
Qed.

(** A rejected manual request. *)
Lemma manual_refresh_with_rejected (cfg : config) (w : env) (relay : M dict)
    (header : option string) (log : list event) :
  GUARDIAN_SECRET cfg <> "" ->
  header <> Some (GUARDIAN_SECRET cfg) ->
  manual_refresh_with cfg w relay header log =
    (Raise (HTTPException 401 "Invalid admin token"), log).
Proof.
  intros Hs Hh. unfold manual_refresh_with.
  rewrite (secret_check_fails _ _ Hs Hh). reflexivity.
Qed.

(** Either a request is authorized or it is rejected. *)
Lemma authorized_dec (cfg : config) (header : option string) :
  authorized cfg header \/
  (GUARDIAN_SECRET cfg <> "" /\ header <> Some (GUARDIAN_SECRET cfg)).
Proof.
  unfold authorized.
  destruct (String.eqb_spec (GUARDIAN_SECRET cfg) ""); [auto|].
  destruct (opt_str_eqb header (Some (GUARDIAN_SECRET cfg))) eqn:E.
  - apply opt_str_eqb_eq in E. auto.
  - right. split; [assumption|]. intros H. apply opt_str_eqb_eq in H.
    congruence.
Qed.

Lemma invariant_success_present (d : dict) :
  refresh_result_invariant d = true -> exists b, lookup "success" d = Some (PyBool b).
Proof.
  unfold refresh_result_invariant.
  destruct (lookup "success" d) as [[| b | | | | | |]|]; try discriminate.
  eauto.
Qed.

(** The [error] of a relay result is a str or is missing, so a body that
    carries it can be rendered. *)
Lemma relay_error_renders (cfg : config) (w : env) (log : list event)
    (d : dict) :
  fst (refresh_withings_token cfg w log) = Ok d ->
  serialisable (dict_get d "error") = true.
Proof.
  destruct (String.eqb_spec (ADMIN_API_TOKEN cfg) "") as [H | H].
  - rewrite (relay_run_no_token cfg w log H). intros [= <-]. reflexivity.
  - rewrite (relay_run_token cfg w log H). cbn [fst]. intros [= <-].
    destruct (upstream w (refresh_call cfg)) as [e | r]; [reflexivity|].
    destruct (status_code r =? 200); [|reflexivity].
    destruct (json r) as [v | e]; [|reflexivity].
    destruct v; reflexivity.
Qed.


(** The two routes as deployed, for callers that pass the secret check:
    the relay returns a result with a boolean [success], and each
    handler returns the success dict or builds the failure response. *)
Lemma routes_run (cfg : config) (w : env) (req : request)
    (hg ha : option string) (log : list event) :
  authorized cfg hg ->
  authorized cfg ha ->
  exists d b calls,
    refresh_withings_token cfg w log
      = (Ok d, (log ++ RelayInvoked :: calls)%list) /\
    lookup "success" d = Some (PyBool b) /\
    (calls = [] \/ calls = [OutboundPost (refresh_call cfg)]) /\
    refresh_needed cfg w req hg log =
      (Ok (if b then
             ReturnDict
               [("success", PyBool true);
                ("message", PyStr "Token refreshed successfully");
                ("expires_at", dict_get d "expires_at");
                ("timestamp", PyStr (utcnow_isoformat w))]
           else
             JSONResponse 500
               [("success", PyBool false);
                ("message", PyStr "Token refresh failed");
                ("error", dict_get d "error");
                ("timestamp", PyStr (utcnow_isoformat w))]),
       (log ++ RelayInvoked :: calls)%list) /\
    manual_refresh cfg w ha log =
      (Ok (if b then
             ReturnDict
               [("success", PyBool true);
                ("message", PyStr "Token refreshed successfully");
                ("expires_at", dict_get d "expires_at");
                ("timestamp", PyStr (utcnow_isoformat w))]
           else
             JSONResponse 500
               [("success", PyBool false);
                ("message", PyStr "Token refresh failed");
                ("error", dict_get d "error")]),
       (log ++ RelayInvoked :: calls)%list).
Proof.
  intros Hg Ha.
  destruct (relay_returns cfg w log) as (d & calls & Hr & Hi & Hc).
  destruct (invariant_success_present d Hi) as [b Hb].
  assert (He : serialisable (dict_get d "error") = true).
  { apply (relay_error_renders cfg w log). rewrite Hr. reflexivity. }
  exists d, b, calls. split; [exact Hr|]. split; [exact Hb|].
  split; [exact Hc|].
  unfold refresh_needed, manual_refresh.
  rewrite (refresh_needed_with_run _ _ _ req _ log Hg).
  rewrite (manual_refresh_with_run _ _ _ _ log Ha).
  rewrite Hr, Hb, He. destruct b; split; reflexivity.
Qed.

(* ================================================================== *)
(** ** The relay *)
(* ================================================================== *)

(** C2.  With no admin token configured the relay returns at once with
    [success = False] and the error "ADMIN_API_TOKEN not configured";
    the log gains the relay entry and no outbound POST. *)
Theorem relay_without_admin_token (cfg : config) (w : env) (log : list event) :
  ADMIN_API_TOKEN cfg = "" ->
  refresh_withings_token cfg w log =
    (Ok [("success", PyBool false);
         ("error", PyStr "ADMIN_API_TOKEN not configured")],
     (log ++ [RelayInvoked])%list) /\
  outbound_count (snd (refresh_withings_token cfg w log)) = outbound_count log.
Proof.
  intros H. rewrite (relay_run_no_token cfg w log H). split; [reflexivity|].
  simpl. rewrite outbound_count_app. simpl. lia.
Qed.

Lemma relay_without_admin_token_witness :
  ADMIN_API_TOKEN Sample.cfg_no_token = "" /\
  refresh_withings_token Sample.cfg_no_token Sample.unreachable [] =
    (Ok [("success", PyBool false);
         ("error", PyStr "ADMIN_API_TOKEN not configured")],
     [RelayInvoked]) /\
  outbound_count
    (snd (refresh_withings_token Sample.cfg_no_token Sample.unreachable []))
  = outbound_count [].
Proof.
  split; [reflexivity|].
  apply (relay_without_admin_token Sample.cfg_no_token Sample.unreachable []).
  reflexivity.
Defined.

(** C3.  When the upstream answers with a status other than 200 and
    body text B, the relay returns [success = False] with error
    "HTTP <status>: " followed by B, and both routes, for a caller that
    passed the secret check, answer 500. *)
Theorem relay_upstream_rejection (cfg : config) (w : env) (r : response)
    (req : request) (hg ha : option string) (log : list event) :
  ADMIN_API_TOKEN cfg <> "" ->
  upstream w (refresh_call cfg) = PostReturns r ->
  status_code r <> 200 ->
  authorized cfg hg ->
  authorized cfg ha ->
  fst (refresh_withings_token cfg w log) =
    Ok [("success", PyBool false);
        ("error", PyStr ("HTTP " ++ str_int (status_code r) ++ ": " ++ text r))] /\
  status (fst (serve_refresh_needed cfg w req hg log)) = 500 /\
  status (fst (serve_manual_refresh cfg w ha log)) = 500.
Proof.
  intros Ht Hu Hs Hg Ha.
  assert (Hrun : refresh_withings_token cfg w log =
            (Ok [("success", PyBool false);
                 ("error", PyStr ("HTTP " ++ str_int (status_code r)
                                    ++ ": " ++ text r))],
             (log ++ [RelayInvoked; OutboundPost (refresh_call cfg)])%list)).
  { rewrite (relay_run_token cfg w log Ht), Hu.
    destruct (Z.eqb_spec (status_code r) 200); [contradiction | reflexivity]. }
  split; [rewrite Hrun; reflexivity|].
  unfold serve_refresh_needed, serve_manual_refresh,
    refresh_needed, manual_refresh.
  rewrite (refresh_needed_with_run _ _ _ req _ log Hg).
  rewrite (manual_refresh_with_run _ _ _ _ log Ha).
  rewrite Hrun. split; reflexivity.
Qed.

Lemma relay_upstream_rejection_witness :
  fst (refresh_withings_token Sample.cfg (Sample.answering Sample.r503) []) =
    Ok [("success", PyBool false);
        ("error", PyStr "HTTP 503: service unavailable")] /\
  status (fst (serve_refresh_needed Sample.cfg (Sample.answering Sample.r503)
                 Sample.peer (Some "s3cret") [])) = 500 /\
  status (fst (serve_manual_refresh Sample.cfg (Sample.answering Sample.r503)
                 (Some "s3cret") [])) = 500.
Proof.
  apply (relay_upstream_rejection Sample.cfg (Sample.answering Sample.r503)
           Sample.r503 Sample.peer (Some "s3cret") (Some "s3cret") []).
  - discriminate.
  - reflexivity.
  - discriminate.
  - right. reflexivity.
  - right. reflexivity.
Defined.

(** C4, as the code has it.  When the upstream answers 200 and the body
    parses to a JSON object D, the relay returns [success = True] with
    [expires_at] and [expires_in_seconds] taken from D unchanged, each
    [None] when D has no such key. *)
Theorem relay_200_object_passthrough (cfg : config) (w : env) (r : response)
    (D : dict) (log : list event) :
  ADMIN_API_TOKEN cfg <> "" ->
  upstream w (refresh_call cfg) = PostReturns r ->
  status_code r = 200 ->
  json r = Ok (PyDict D) ->
  fst (refresh_withings_token cfg w log) =
    Ok [("success", PyBool true);
        ("expires_at",
           match lookup "expires_at" D with Some v => v | None => PyNone end);
        ("expires_in_seconds",
           match lookup "expires_in_seconds" D with
           | Some v => v
           | None => PyNone
           end)].
Proof.
  intros Ht Hu Hs Hj.
  rewrite (relay_run_token cfg w log Ht), Hu, Hs, Hj. reflexivity.
Qed.

Lemma relay_200_object_passthrough_witness :
  fst (refresh_withings_token Sample.cfg (Sample.answering Sample.r200) []) =
    Ok [("success", PyBool true);
        ("expires_at", PyStr "2025-01-01T00:00:00Z");
        ("expires_in_seconds", PyInt 3600)].
Proof.
  apply (relay_200_object_passthrough Sample.cfg
           (Sample.answering Sample.r200) Sample.r200
           [("expires_at", PyStr "2025-01-01T00:00:00Z");
            ("expires_in_seconds", PyInt 3600)] []).
  - discriminate.
  - reflexivity.
  - reflexivity.
  - reflexivity.
Defined.

(** C4 as stated fails: a 200 whose JSON body is the array [[]] has no
    [get], line 190 raises AttributeError, and the relay reports a
    failure. *)
Lemma relay_200_array_is_failure :
  status_code Sample.r200_array = 200 /\
  json Sample.r200_array = Ok (PyList []) /\
  fst (refresh_withings_token Sample.cfg
         (Sample.answering Sample.r200_array) []) =
    Ok [("success", PyBool false);
        ("error", PyStr "'list' object has no attribute 'get'")].
Proof.
  repeat split.
Qed.


(** C9.  Every result of the relay has a boolean [success], no [error]
    key when it is true and an [error] key when it is false. *)
Theorem relay_result_invariant (cfg : config) (w : env) (log : list event) :
  exists d,
    fst (refresh_withings_token cfg w log) = Ok d /\
    refresh_result_invariant d = true.
Proof.
  destruct (relay_returns cfg w log) as (d & calls & Hr & Hi & _).
  exists d. rewrite Hr. auto.
Qed.

(* ================================================================== *)
(** ** The routes *)
(* ================================================================== *)

(** A rejected webhook request never reaches the relay: the log is left
    as it was, whatever the peer address. *)
Lemma refresh_needed_rejected_no_relay (cfg : config) (w : env)
    (req : request) (header : option string) (log : list event) :
  GUARDIAN_SECRET cfg <> "" ->
  header <> Some (GUARDIAN_SECRET cfg) ->
  snd (serve_refresh_needed cfg w req header log) = log.
Proof.
  intros Hs Hh. unfold serve_refresh_needed, refresh_needed.
  rewrite (refresh_needed_with_rejected _ _ _ _ _ _ Hs Hh). reflexivity.
Qed.

(** A rejected webhook request that carries a peer address is answered
    401 with detail "Invalid guardian secret". *)
Lemma refresh_needed_rejected_with_client (cfg : config) (w : env)
    (a : address) (header : option string) (log : list event) :
  GUARDIAN_SECRET cfg <> "" ->
  header <> Some (GUARDIAN_SECRET cfg) ->
  serve_refresh_needed cfg w {| client := Some a |} header log =
    ({| status := 401;
        body := JsonBody [("detail", PyStr "Invalid guardian secret")] |},
     log).
Proof.
  intros Hs Hh. unfold serve_refresh_needed, refresh_needed.
  rewrite (refresh_needed_with_rejected _ _ _ _ _ _ Hs Hh). reflexivity.
Qed.

(** C1, where the code departs from it.  With a secret configured and a
    missing or wrong X-Guardian-Secret, a request whose [client] is
    [None] does not get the 401: line 79 raises AttributeError while
    formatting the log message, before line 80 is reached, and the
    caller sees the server's 500.  The relay is still not invoked. *)
Theorem refresh_needed_rejected_without_client (cfg : config) (w : env)
    (header : option string) (log : list event) :
  GUARDIAN_SECRET cfg <> "" ->
  header <> Some (GUARDIAN_SECRET cfg) ->
  refresh_needed cfg w {| client := None |} header log =
    (Raise (Exception "AttributeError"
              "'NoneType' object has no attribute 'host'"), log) /\
  serve_refresh_needed cfg w {| client := None |} header log =
    ({| status := 500; body := TextBody "Internal Server Error" |}, log).
Proof.
  intros Hs Hh. unfold serve_refresh_needed, refresh_needed.
  rewrite (refresh_needed_with_rejected _ _ _ _ _ _ Hs Hh).
  split; reflexivity.
Qed.

Lemma refresh_needed_rejected_without_client_witness :
  refresh_needed Sample.cfg (Sample.answering Sample.r200)
    Sample.no_peer None [] =
    (Raise (Exception "AttributeError"
              "'NoneType' object has no attribute 'host'"), []) /\
  serve_refresh_needed Sample.cfg (Sample.answering Sample.r200)
    Sample.no_peer None [] =
    ({| status := 500; body := TextBody "Internal Server Error" |}, []).
Proof.
  apply (refresh_needed_rejected_without_client Sample.cfg
           (Sample.answering Sample.r200) None []).
  - discriminate.
  - discriminate.
Defined.

(** After the secret check a route answers 200 or 500, whatever the
    relay does. *)
Lemma manual_refresh_with_status (cfg : config) (w : env) (relay : M dict)
    (header : option string) (log : list event) :
  authorized cfg header ->
  let s := status (respond (fst (manual_refresh_with cfg w relay header log))) in
  s = 200 \/ s = 500.
Proof.
  intros Ha. rewrite (manual_refresh_with_run cfg w relay header log Ha).
  destruct (relay log) as [[d | e] log']; [|simpl; auto].
  destruct (lookup "success" d) as [v|]; [|simpl; auto].
  destruct (truthy v); simpl.
  - destruct (serialisable (dict_get d "expires_at")); simpl; auto.
  - destruct (serialisable (dict_get d "error")); simpl; auto.
Qed.

Lemma refresh_needed_with_status (cfg : config) (w : env) (relay : M dict)
    (req : request) (header : option string) (log : list event) :
  authorized cfg header ->
  let s :=
    status (respond (fst (refresh_needed_with cfg w relay req header log))) in
  s = 200 \/ s = 500.
Proof.
  intros Ha. rewrite (refresh_needed_with_run cfg w relay req header log Ha).
  destruct (relay log) as [[d | e] log']; [|simpl; auto].
  destruct (lookup "success" d) as [v|]; [|simpl; auto].
  destruct (truthy v); simpl.
  - destruct (serialisable (dict_get d "expires_at")); simpl; auto.
  - destruct (serialisable (dict_get d "error")); simpl; auto.
Qed.

Lemma fst_serve_manual_refresh (cfg : config) (w : env)
    (header : option string) (log : list event) :
  fst (serve_manual_refresh cfg w header log) =
    respond (fst (manual_refresh cfg w header log)).
Proof.
  unfold serve_manual_refresh.
  destruct (manual_refresh cfg w header log); reflexivity.
Qed.

Lemma snd_serve_manual_refresh (cfg : config) (w : env)
    (header : option string) (log : list event) :
  snd (serve_manual_refresh cfg w header log) =
    snd (manual_refresh cfg w header log).
Proof.
  unfold serve_manual_refresh.
  destruct (manual_refresh cfg w header log); reflexivity.
Qed.

Lemma fst_serve_refresh_needed (cfg : config) (w : env) (req : request)
    (header : option string) (log : list event) :
  fst (serve_refresh_needed cfg w req header log) =
    respond (fst (refresh_needed cfg w req header log)).
Proof.
  unfold serve_refresh_needed.
  destruct (refresh_needed cfg w req header log); reflexivity.
Qed.

Lemma snd_serve_refresh_needed (cfg : config) (w : env) (req : request)
    (header : option string) (log : list event) :
  snd (serve_refresh_needed cfg w req header log) =
    snd (refresh_needed cfg w req header log).
Proof.
  unfold serve_refresh_needed.
  destruct (refresh_needed cfg w req header log); reflexivity.
Qed.

(** POST /refresh answers 401 exactly when a secret is configured and
    the header differs from it. *)
Lemma manual_refresh_401_iff (cfg : config) (w : env)
    (header : option string) (log : list event) :
  status (fst (serve_manual_refresh cfg w header log)) = 401 <->
  (GUARDIAN_SECRET cfg <> "" /\ header <> Some (GUARDIAN_SECRET cfg)).
Proof.
  rewrite fst_serve_manual_refresh. unfold manual_refresh.
  destruct (authorized_dec cfg header) as [Ha | [Hs Hh]].
  - pose proof (manual_refresh_with_status cfg w
                  (refresh_withings_token cfg w) header log Ha) as Hst.
    simpl in Hst. split.
    + intros H. rewrite H in Hst. destruct Hst; discriminate.
    + intros [Hs Hh]. destruct Ha; contradiction.
  - rewrite (manual_refresh_with_rejected _ _ _ _ _ Hs Hh). simpl.
    split; auto.
Qed.

(** POST /webhook/refresh-needed answers 401 exactly when a secret is
    configured, the header differs from it, and the request carries a
    peer address. *)
Lemma refresh_needed_401_iff (cfg : config) (w : env) (req : request)
    (header : option string) (log : list event) :
  status (fst (serve_refresh_needed cfg w req header log)) = 401 <->
  (GUARDIAN_SECRET cfg <> "" /\ header <> Some (GUARDIAN_SECRET cfg) /\
   client req <> None).
Proof.
  rewrite fst_serve_refresh_needed. unfold refresh_needed.
  destruct (authorized_dec cfg header) as [Ha | [Hs Hh]].
  - pose proof (refresh_needed_with_status cfg w
                  (refresh_withings_token cfg w) req header log Ha) as Hst.
    simpl in Hst. split.
    + intros H. rewrite H in Hst. destruct Hst; discriminate.
    + intros (Hs & Hh & _). destruct Ha; contradiction.
  - rewrite (refresh_needed_with_rejected _ _ _ _ _ _ Hs Hh).
    destruct (client req); simpl; split.
    + intros _. repeat split; auto. discriminate.
    + reflexivity.
    + discriminate.
    + intros (_ & _ & H). contradiction.
Qed.

(** C6.  With a secret configured, POST /refresh answers 401 exactly
    when X-Admin-Token differs from the guardian secret; replacing the
    admin token by any other value changes the 401 decision of neither
    route; and every outbound POST made while serving the request
    carries the admin token as its X-Admin-Token header. *)
Theorem manual_refresh_checks_guardian_secret (cfg : config) (w : env)
    (req : request) (header : option string) (log : list event) :
  GUARDIAN_SECRET cfg <> "" ->
  (status (fst (serve_manual_refresh cfg w header log)) = 401 <->
   header <> Some (GUARDIAN_SECRET cfg)) /\
  (forall t,
     status (fst (serve_manual_refresh (with_admin_token t cfg) w header log))
       = 401 <->
     status (fst (serve_manual_refresh cfg w header log)) = 401) /\
  (forall t,
     status (fst (serve_refresh_needed (with_admin_token t cfg) w req header
                    log)) = 401 <->
     status (fst (serve_refresh_needed cfg w req header log)) = 401) /\
  exists new,
    snd (serve_manual_refresh cfg w header log) = (log ++ new)%list /\
    Forall (carries_admin_token cfg) new.
Proof.
  intros Hs. split; [|split; [|split]].
  - rewrite manual_refresh_401_iff. tauto.
  - intros t. rewrite !manual_refresh_401_iff. reflexivity.
  - intros t. rewrite !refresh_needed_401_iff. reflexivity.
  - rewrite snd_serve_manual_refresh. unfold manual_refresh.
    destruct (authorized_dec cfg header) as [Ha | [_ Hh]].
    + rewrite (snd_manual_refresh_with _ _ _ _ log Ha).
      destruct (relay_returns cfg w log) as (d & calls & Hr & Hi & Hc).
      rewrite Hr. exists (RelayInvoked :: calls). split.
      * reflexivity.
      * constructor; [exact I|].
        destruct Hc as [-> | ->]; repeat constructor.
    + rewrite (manual_refresh_with_rejected _ _ _ _ _ Hs Hh).
      exists []. split; [symmetry; apply app_nil_r | constructor].
Qed.

Lemma manual_refresh_checks_guardian_secret_witness :
  GUARDIAN_SECRET Sample.cfg <> "" /\
  status (fst (serve_manual_refresh Sample.cfg (Sample.answering Sample.r200)
                 (Some (ADMIN_API_TOKEN Sample.cfg)) [])) = 401 /\
  status (fst (serve_manual_refresh Sample.cfg (Sample.answering Sample.r200)
                 (Some (GUARDIAN_SECRET Sample.cfg)) [])) = 200.
Proof.
  split; [discriminate|]. split.
  - destruct (manual_refresh_checks_guardian_secret Sample.cfg
                (Sample.answering Sample.r200) Sample.peer
                (Some (ADMIN_API_TOKEN Sample.cfg)) []) as [[_ H] _].
    + discriminate.
    + apply H. simpl. discriminate.
  - reflexivity.
Defined.

(** C7.  With the secret configured as the empty string, both routes
    skip the check: whatever the header, the response is the one a
    request without the header gets, it is not a 401, and the relay is
    entered exactly once. *)
Theorem empty_secret_bypasses_check (cfg : config) (w : env) (req : request)
    (header : option string) (log : list event) :
  GUARDIAN_SECRET cfg = "" ->
  (serve_refresh_needed cfg w req header log
     = serve_refresh_needed cfg w req None log /\
   status (fst (serve_refresh_needed cfg w req header log)) <> 401 /\
   relay_count (snd (serve_refresh_needed cfg w req header log))
     = S (relay_count log)) /\
  (serve_manual_refresh cfg w header log
     = serve_manual_refresh cfg w None log /\
   status (fst (serve_manual_refresh cfg w header log)) <> 401 /\
   relay_count (snd (serve_manual_refresh cfg w header log))
     = S (relay_count log)).
Proof.
  intros Hs.
  assert (Ha : forall h, authorized cfg h) by (intros h; left; exact Hs).
  destruct (relay_returns cfg w log) as (d & calls & Hr & Hi & Hc).
  destruct (invariant_success_present d Hi) as [b Hb].
  assert (Hn : relay_count (log ++ RelayInvoked :: calls) = S (relay_count log)).
  { rewrite relay_count_app. simpl.
    destruct Hc as [-> | ->]; simpl; lia. }
  split.
  - split; [|split].
    + unfold serve_refresh_needed, refresh_needed.
      rewrite !(refresh_needed_with_run _ _ _ req _ log (Ha _)). reflexivity.
    + rewrite refresh_needed_401_iff. tauto.
    + rewrite snd_serve_refresh_needed. unfold refresh_needed.
      rewrite (snd_refresh_needed_with _ _ _ req _ log (Ha _)), Hr.
      exact Hn.
  - split; [|split].
    + unfold serve_manual_refresh, manual_refresh.
      rewrite !(manual_refresh_with_run _ _ _ _ log (Ha _)). reflexivity.
    + rewrite manual_refresh_401_iff. tauto.
    + rewrite snd_serve_manual_refresh. unfold manual_refresh.
      rewrite (snd_manual_refresh_with _ _ _ _ log (Ha _)), Hr.
      exact Hn.
Qed.

Lemma empty_secret_bypasses_check_witness :
  GUARDIAN_SECRET Sample.cfg_no_secret = "" /\
  status (fst (serve_refresh_needed Sample.cfg_no_secret
                 (Sample.answering Sample.r200) Sample.peer
                 (Some "not the secret") [])) <> 401 /\
  relay_count (snd (serve_manual_refresh Sample.cfg_no_secret
                      (Sample.answering Sample.r200)
                      (Some "not the secret") [])) = 1%nat.
Proof.
  destruct (empty_secret_bypasses_check Sample.cfg_no_secret
              (Sample.answering Sample.r200) Sample.peer
              (Some "not the secret") [])
    as [(_ & H1 & _) (_ & _ & H2)].
  - reflexivity.
  - split; [reflexivity|]. split; [exact H1 | exact H2].
Defined.




(** A relay result whose [error] is a NaN: building the failure response
    raises inside the [try], and each route answers from its [except]
    branch. *)
Lemma routes_nan_error_answered_by_except :
  message_of
    (respond (fst (refresh_needed_with Sample.cfg
                     (Sample.answering Sample.r200) Deploy.nan_failure
                     Sample.peer (Some "s3cret") [])))
    = Some (PyStr "Token refresh exception") /\
  message_of
    (respond (fst (manual_refresh_with Sample.cfg
                     (Sample.answering Sample.r200) Deploy.nan_failure
                     (Some "s3cret") [])))
    = Some (PyStr "Exception during refresh").
Proof.
  split; reflexivity.
Qed.




(* ================================================================== *)
(** ** The relay's error text *)
(* ================================================================== *)

Lemma colon_free_string_of_uint (d : Decimal.uint) :
  colon_free (NilEmpty.string_of_uint d) = true.
Proof.
  induction d; simpl; auto.
Qed.

Lemma colon_free_str_int (n : Z) : colon_free (str_int n) = true.
Proof.
  unfold str_int, NilZero.string_of_int, NilZero.string_of_uint.
  destruct (Z.to_int n) as [d | d]; destruct d; simpl;
    auto using colon_free_string_of_uint.
Qed.

(** [str_int] can be read back. *)
Lemma str_int_parse (n : Z) :
  option_map Z.of_int (NilZero.int_of_string (str_int n)) = Some n.
Proof.
  unfold str_int. rewrite NilZero.isi.
  - simpl. rewrite DecimalZ.of_to. reflexivity.
  - destruct n; simpl; try discriminate.
    intros H. injection H as H. exact (DecimalPos.Unsigned.to_uint_nonnil _ H).
  - destruct n; simpl; try discriminate.
    intros H. injection H as H. exact (DecimalPos.Unsigned.to_uint_nonnil _ H).
Qed.

Lemma str_int_inj (a b : Z) : str_int a = str_int b -> a = b.
Proof.
  intros H. pose proof (str_int_parse a) as Ha. rewrite H, str_int_parse in Ha.
  congruence.
Qed.

(** A colon-free prefix before the first ": " can be split off in one
    way only. *)
Lemma colon_prefix_unique (s1 s2 t1 t2 : string) :
  colon_free s1 = true ->
  colon_free s2 = true ->
  s1 ++ ": " ++ t1 = s2 ++ ": " ++ t2 ->
  s1 = s2 /\ t1 = t2.
Proof.
  revert s2. induction s1 as [|c s1 IH]; intros [|c' s2] H1 H2 H; simpl in *.
  - injection H as H. auto.
  - injection H as Hc _. subst c'. discriminate H2.
  - injection H as Hc _. subst c. discriminate H1.
  - injection H as Hc H. subst c'.
    apply andb_prop in H1, H2. destruct H1 as [_ H1], H2 as [_ H2].
    destruct (IH s2 H1 H2 H) as [-> ->]. auto.
Qed.

Lemma http_error_inj (a b : Z) (t1 t2 : string) :
  http_error a t1 = http_error b t2 -> a = b /\ t1 = t2.
Proof.
  unfold http_error. intros H. simpl in H. injection H as H.
  destruct (colon_prefix_unique _ _ _ _ (colon_free_str_int a)
              (colon_free_str_int b) H) as [Hs Ht].
  split; [apply str_int_inj; exact Hs | exact Ht].
Qed.

(** The relay on a non-200 answer, with the log. *)
Lemma relay_run_non_200 (cfg : config) (w : env) (r : response)
    (log : list event) :
  ADMIN_API_TOKEN cfg <> "" ->
  upstream w (refresh_call cfg) = PostReturns r ->
  status_code r <> 200 ->
  refresh_withings_token cfg w log =
    (Ok [("success", PyBool false);
         ("error", PyStr (http_error (status_code r) (text r)))],
     (log ++ [RelayInvoked; OutboundPost (refresh_call cfg)])%list).
Proof.
  intros Ht Hu Hs. rewrite (relay_run_token cfg w log Ht), Hu.
  destruct (Z.eqb_spec (status_code r) 200); [contradiction | reflexivity].
Qed.

(** X1.  The error text of a rejected refresh is unambiguous: two
    non-200 answers for which the relay returns the same result have the
    same status code and the same body text. *)
Theorem relay_error_determines_response (cfg : config) (w1 w2 : env)
    (r1 r2 : response) (log : list event) :
  ADMIN_API_TOKEN cfg <> "" ->
  upstream w1 (refresh_call cfg) = PostReturns r1 ->
  upstream w2 (refresh_call cfg) = PostReturns r2 ->
  status_code r1 <> 200 ->
  status_code r2 <> 200 ->
  fst (refresh_withings_token cfg w1 log)
    = fst (refresh_withings_token cfg w2 log) ->
  status_code r1 = status_code r2 /\ text r1 = text r2.
Proof.
  intros Ht H1 H2 Hs1 Hs2 H.
  rewrite (relay_run_non_200 cfg w1 r1 log Ht H1 Hs1) in H.
  rewrite (relay_run_non_200 cfg w2 r2 log Ht H2 Hs2) in H.
  cbn [fst] in H. injection H as H. apply http_error_inj.
  unfold http_error. simpl. rewrite H. reflexivity.
Qed.

Lemma relay_error_determines_response_witness :
  status_code Sample.r503 = status_code Sample.r503 /\
  text Sample.r503 = text Sample.r503.
Proof.
  apply (relay_error_determines_response Sample.cfg
           (Sample.answering Sample.r503) (Sample.answering Sample.r503)
           Sample.r503 Sample.r503 []).
  - discriminate.
  - reflexivity.
  - reflexivity.
  - discriminate.
  - discriminate.
  - reflexivity.
Defined.

(* ================================================================== *)
(** ** When a refresh succeeds *)
(* ================================================================== *)

(** When the relay reports success. *)
Lemma relay_success_cases (cfg : config) (w : env) (log : list event) :
  (exists d, fst (refresh_withings_token cfg w log) = Ok d /\
             lookup "success" d = Some (PyBool true)) <->
  (ADMIN_API_TOKEN cfg <> "" /\
   exists r D, upstream w (refresh_call cfg) = PostReturns r /\
               status_code r = 200 /\
               json r = Ok (PyDict D)).
Proof.
  destruct (String.eqb_spec (ADMIN_API_TOKEN cfg) "") as [H | H].
  - rewrite (relay_run_no_token cfg w log H). cbn [fst]. split.
    + intros (d & Hd & Hs). injection Hd as <-. simpl in Hs. discriminate Hs.
    + intros [Hn _]. contradiction.
  - rewrite (relay_run_token cfg w log H). cbn [fst]. split.
    + intros (d & Hd & Hs). split; [assumption|].
      injection Hd as <-.
      destruct (upstream w (refresh_call cfg)) as [e | r]; [discriminate Hs|].
      destruct (Z.eqb_spec (status_code r) 200) as [H2 | H2];
        [|discriminate Hs].
      destruct (json r) as [v | e] eqn:Hj; [|discriminate Hs].
      destruct v as [| | | | | |D|]; try discriminate Hs.
      exists r, D. auto.
    + intros (_ & r & D & Hu & Hst & Hj). rewrite Hu, Hst, Hj. simpl.
      eexists. split; reflexivity.
Qed.

(** X2.  The relay reports [success = True] exactly when an admin token
    is configured and the upstream answered 200 with a body that parses
    to a JSON object. *)
Theorem relay_success_iff (cfg : config) (w : env) (log : list event) :
  (exists d, fst (refresh_withings_token cfg w log) = Ok d /\
             lookup "success" d = Some (PyBool true)) <->
  (ADMIN_API_TOKEN cfg <> "" /\
   exists r D, upstream w (refresh_call cfg) = PostReturns r /\
               status_code r = 200 /\
               json r = Ok (PyDict D)).
Proof.
  exact (relay_success_cases cfg w log).
Qed.

Lemma relay_success_iff_witness :
  exists d,
    fst (refresh_withings_token Sample.cfg (Sample.answering Sample.r200) [])
      = Ok d /\
    lookup "success" d = Some (PyBool true).
Proof.
  apply (relay_success_iff Sample.cfg (Sample.answering Sample.r200) []).
  split; [discriminate|].
  exists Sample.r200.
  exists [("expires_at", PyStr "2025-01-01T00:00:00Z");
          ("expires_in_seconds", PyInt 3600)].
  repeat split.
Defined.

(** X3.  A 200 whose body parses to JSON that is not an object (null, a
    boolean, a number, a string, an array) is reported as a failure whose
    error names the Python type that has no [get]; the POST was made. *)
Theorem relay_200_non_object (cfg : config) (w : env) (r : response)
    (v : value) (log : list event) :
  ADMIN_API_TOKEN cfg <> "" ->
  upstream w (refresh_call cfg) = PostReturns r ->
  status_code r = 200 ->
  json r = Ok v ->
  (forall D, v <> PyDict D) ->
  refresh_withings_token cfg w log =
    (Ok [("success", PyBool false);
         ("error", PyStr ("'" ++ type_name v
                            ++ "' object has no attribute 'get'"))],
     (log ++ [RelayInvoked; OutboundPost (refresh_call cfg)])%list).
Proof.
  intros Ht Hu Hs Hj Hv.
  rewrite (relay_run_token cfg w log Ht), Hu, Hs, Hj. simpl.
  destruct v; try reflexivity. exfalso. exact (Hv d eq_refl).
Qed.

Lemma relay_200_non_object_witness :
  refresh_withings_token Sample.cfg (Sample.answering Deploy.r200_string) [] =
    (Ok [("success", PyBool false);
         ("error", PyStr "'str' object has no attribute 'get'")],
     [RelayInvoked; OutboundPost (refresh_call Sample.cfg)]).
Proof.
  apply (relay_200_non_object Sample.cfg (Sample.answering Deploy.r200_string)
           Deploy.r200_string (PyStr "ok") []).
  - discriminate.
  - reflexivity.
  - reflexivity.
  - reflexivity.
  - discriminate.
Defined.



(** The status of an authorized request follows the relay's [success]
    and, on success, whether [expires_at] can be rendered. *)
Lemma routes_status_by_relay (cfg : config) (w : env) (req : request)
    (hg ha : option string) (log : list event) :
  authorized cfg hg ->
  authorized cfg ha ->
  exists d b,
    fst (refresh_withings_token cfg w log) = Ok d /\
    lookup "success" d = Some (PyBool b) /\
    status (fst (serve_refresh_needed cfg w req hg log))
      = (if b && serialisable (dict_get d "expires_at") then 200 else 500) /\
    status (fst (serve_manual_refresh cfg w ha log))
      = (if b && serialisable (dict_get d "expires_at") then 200 else 500).
Proof.
  intros Hg Ha.
  destruct (routes_run cfg w req hg ha log Hg Ha)
    as (d & b & calls & Hr & Hb & _ & Hn & Hm).
  exists d, b. rewrite Hr. split; [reflexivity|]. split; [exact Hb|].
  rewrite fst_serve_refresh_needed, fst_serve_manual_refresh, Hn, Hm.
  destruct b; simpl; [|split; reflexivity].
  destruct (serialisable (dict_get d "expires_at")); split; reflexivity.
Qed.



(* ================================================================== *)
(** ** When a refresh fails *)
(* ================================================================== *)

(** X6.  When the POST itself raises, both routes answer 500 with the
    message "Token refresh failed" and the stringified exception as
    [error]: the relay has already caught it, so the handlers' own
    [except] branch is not the one that answers.  The webhook adds the
    time, the manual route does not. *)
Theorem routes_transport_failure (cfg : config) (w : env) (e : exn)
    (req : request) (hg ha : option string) (log : list event) :
  authorized cfg hg ->
  authorized cfg ha ->
  ADMIN_API_TOKEN cfg <> "" ->
  upstream w (refresh_call cfg) = PostRaises e ->
  serve_refresh_needed cfg w req hg log =
    ({| status := 500;
        body := JsonBody
                  [("success", PyBool false);
                   ("message", PyStr "Token refresh failed");
                   ("error", PyStr (str_exn e));
                   ("timestamp", PyStr (utcnow_isoformat w))] |},
     (log ++ [RelayInvoked; OutboundPost (refresh_call cfg)])%list) /\
  serve_manual_refresh cfg w ha log =
    ({| status := 500;
        body := JsonBody
                  [("success", PyBool false);
                   ("message", PyStr "Token refresh failed");
                   ("error", PyStr (str_exn e))] |},
     (log ++ [RelayInvoked; OutboundPost (refresh_call cfg)])%list).
Proof.
  intros Hg Ha Ht Hu.
  unfold serve_refresh_needed, serve_manual_refresh,
    refresh_needed, manual_refresh.
  rewrite (refresh_needed_with_run _ _ _ req _ log Hg).
  rewrite (manual_refresh_with_run _ _ _ _ log Ha).
  rewrite (relay_run_token cfg w log Ht), Hu.
  split; reflexivity.
Qed.

Lemma routes_transport_failure_witness :
  serve_manual_refresh Sample.cfg Sample.unreachable (Some "s3cret") [] =
    ({| status := 500;
        body := JsonBody
                  [("success", PyBool false);
                   ("message", PyStr "Token refresh failed");
                   ("error", PyStr "All connection attempts failed")] |},
     [RelayInvoked; OutboundPost (refresh_call Sample.cfg)]).
Proof.
  destruct (routes_transport_failure Sample.cfg Sample.unreachable
              Deploy.connect_error Sample.peer (Some "s3cret")
              (Some "s3cret") []) as [_ H].
  - right. reflexivity.
  - right. reflexivity.
  - discriminate.
  - reflexivity.
  - exact H.
Defined.

(** X7.  Without an admin token an authorized request is answered 500
    with the error "ADMIN_API_TOKEN not configured" on both routes, and
    the upstream is not contacted. *)
Theorem routes_admin_token_unset (cfg : config) (w : env) (req : request)
    (hg ha : option string) (log : list event) :
  authorized cfg hg ->
  authorized cfg ha ->
  ADMIN_API_TOKEN cfg = "" ->
  serve_refresh_needed cfg w req hg log =
    ({| status := 500;
        body := JsonBody
                  [("success", PyBool false);
                   ("message", PyStr "Token refresh failed");
                   ("error", PyStr "ADMIN_API_TOKEN not configured");
                   ("timestamp", PyStr (utcnow_isoformat w))] |},
     (log ++ [RelayInvoked])%list) /\
  serve_manual_refresh cfg w ha log =
    ({| status := 500;
        body := JsonBody
                  [("success", PyBool false);
                   ("message", PyStr "Token refresh failed");
                   ("error", PyStr "ADMIN_API_TOKEN not configured")] |},
     (log ++ [RelayInvoked])%list) /\
  outbound_count (snd (serve_refresh_needed cfg w req hg log))
    = outbound_count log /\
  outbound_count (snd (serve_manual_refresh cfg w ha log))
    = outbound_count log.
Proof.
  intros Hg Ha Ht.
  unfold serve_refresh_needed, serve_manual_refresh,
    refresh_needed, manual_refresh.
  rewrite (refresh_needed_with_run _ _ _ req _ log Hg).
  rewrite (manual_refresh_with_run _ _ _ _ log Ha).
  rewrite (relay_run_no_token cfg w log Ht). simpl.
  rewrite outbound_count_app. simpl.
  repeat split; lia.
Qed.

Lemma routes_admin_token_unset_witness :
  outbound_count
    (snd (serve_refresh_needed Sample.cfg_no_token
            (Sample.answering Sample.r200) Sample.peer (Some "s3cret") []))
  = outbound_count [] /\
  status (fst (serve_refresh_needed Sample.cfg_no_token
                 (Sample.answering Sample.r200) Sample.peer
                 (Some "s3cret") [])) = 500.
Proof.
  destruct (routes_admin_token_unset Sample.cfg_no_token
              (Sample.answering Sample.r200) Sample.peer (Some "s3cret")
              (Some "s3cret") []) as (_ & _ & H & _).
  - right. reflexivity.
  - right. reflexivity.
  - reflexivity.
  - split; [exact H | reflexivity].
Defined.



(* ================================================================== *)
(** ** The secret check of the two routes *)
(* ================================================================== *)

(** X9.  POST /refresh with a secret configured and a missing or wrong
    X-Admin-Token is answered 401 with detail "Invalid admin token"; the
    relay is not entered and nothing is sent upstream. *)
Theorem manual_refresh_rejected (cfg : config) (w : env)
    (header : option string) (log : list event) :
  GUARDIAN_SECRET cfg <> "" ->
  header <> Some (GUARDIAN_SECRET cfg) ->
  serve_manual_refresh cfg w header log =
    ({| status := 401;
        body := JsonBody [("detail", PyStr "Invalid admin token")] |},
     log).
Proof.
  intros Hs Hh. unfold serve_manual_refresh, manual_refresh.
  rewrite (manual_refresh_with_rejected _ _ _ _ _ Hs Hh). reflexivity.
Qed.

Lemma manual_refresh_rejected_witness :
  serve_manual_refresh Sample.cfg (Sample.answering Sample.r200) None [] =
    ({| status := 401;
        body := JsonBody [("detail", PyStr "Invalid admin token")] |},
     []).
Proof.
  apply (manual_refresh_rejected Sample.cfg (Sample.answering Sample.r200)
           None []).
  - discriminate.
  - discriminate.
Defined.

Lemma refresh_needed_rejected_with_client_witness :
  serve_refresh_needed Sample.cfg (Sample.answering Sample.r200)
    Sample.peer (Some "wrong") [] =
    ({| status := 401;
        body := JsonBody [("detail", PyStr "Invalid guardian secret")] |},
     []).
Proof.
  apply (refresh_needed_rejected_with_client Sample.cfg
           (Sample.answering Sample.r200)
           {| host := "203.0.113.7"; port := 44312 |} (Some "wrong") []).
  - discriminate.
  - simpl. discriminate.
Defined.

(** What one request adds to the log on either POST route. *)
Lemma routes_log_delta (cfg : config) (w : env) (req : request)
    (header : option string) (log : list event) :
  exists delta,
    snd (serve_refresh_needed cfg w req header log) = (log ++ delta)%list /\
    snd (serve_manual_refresh cfg w header log) = (log ++ delta)%list /\
    (delta = [] \/ delta = [RelayInvoked] \/
     delta = [RelayInvoked; OutboundPost (refresh_call cfg)]).
Proof.
  rewrite snd_serve_refresh_needed, snd_serve_manual_refresh.
  unfold refresh_needed, manual_refresh.
  destruct (authorized_dec cfg header) as [Ha | [Hs Hh]].
  - rewrite (snd_refresh_needed_with _ _ _ req _ log Ha).
    rewrite (snd_manual_refresh_with _ _ _ _ log Ha).
    destruct (relay_returns cfg w log) as (d & calls & Hr & Hi & Hc).
    rewrite Hr. exists (RelayInvoked :: calls).
    split; [reflexivity|]. split; [reflexivity|].
    destruct Hc as [-> | ->]; auto.
  - rewrite (refresh_needed_with_rejected _ _ _ _ _ _ Hs Hh).
    rewrite (manual_refresh_with_rejected _ _ _ _ _ Hs Hh).
    exists []. simpl. rewrite app_nil_r. auto.
Qed.

(** X11.  Serving one POST request, on either route and whatever the
    header, only appends to what was done before, enters the relay at
    most once and sends at most one POST upstream: nothing is retried. *)
Theorem routes_at_most_one_post (cfg : config) (w : env) (req : request)
    (hg ha : option string) (log : list event) :
  (exists delta,
     snd (serve_refresh_needed cfg w req hg log) = (log ++ delta)%list /\
     (relay_count delta <= 1)%nat /\
     (outbound_count delta <= relay_count delta)%nat) /\
  (exists delta,
     snd (serve_manual_refresh cfg w ha log) = (log ++ delta)%list /\
     (relay_count delta <= 1)%nat /\
     (outbound_count delta <= relay_count delta)%nat).
Proof.
  split.
  - destruct (routes_log_delta cfg w req hg log) as (delta & H & _ & Hd).
    exists delta. split; [exact H|].
    destruct Hd as [-> | [-> | ->]]; simpl; lia.
  - destruct (routes_log_delta cfg w req ha log) as (delta & _ & H & Hd).
    exists delta. split; [exact H|].
    destruct Hd as [-> | [-> | ->]]; simpl; lia.
Qed.

(** X12.  The two routes let the same callers through: presented with
    the same header value they have the same effect on the upstream. *)
Theorem routes_same_effects (cfg : config) (w : env) (req : request)
    (header : option string) (log : list event) :
  snd (serve_refresh_needed cfg w req header log)
    = snd (serve_manual_refresh cfg w header log).
Proof.
  destruct (routes_log_delta cfg w req header log) as (delta & H1 & H2 & _).
  rewrite H1, H2. reflexivity.
Qed.

(* ================================================================== *)
(** ** Settings and the GET routes *)
(* ================================================================== *)

(** X13.  The two unauthenticated GET routes give away no credential:
    two deployments with the same upstream URL, and the same pattern of
    which of admin token, guardian secret and Railway token are
    non-empty, answer GET / and GET /health identically, whatever the
    values of those three are. *)
Theorem get_routes_hide_credentials (s1 s2 : settings) (w : env)
    (log : list event) :
  WITHINGS_MCP_URL (core s1) = WITHINGS_MCP_URL (core s2) ->
  truthy_str (ADMIN_API_TOKEN (core s1))
    = truthy_str (ADMIN_API_TOKEN (core s2)) ->
  truthy_str (GUARDIAN_SECRET (core s1))
    = truthy_str (GUARDIAN_SECRET (core s2)) ->
  truthy_str (RAILWAY_TOKEN s1) = truthy_str (RAILWAY_TOKEN s2) ->
  serve_root s1 w log = serve_root s2 w log /\
  serve_health s1 w log = serve_health s2 w log.
Proof.
  intros Hu Ha Hg Hr. unfold serve_root, serve_health, root, health, ret.
  rewrite Hu, Ha, Hg, Hr. split; reflexivity.
Qed.

Lemma get_routes_hide_credentials_witness :
  serve_root (load_settings Deploy.full) (Sample.answering Sample.r200) []
    = serve_root
        (load_settings
           [("GUARDIAN_SECRET", "another secret");
            ("ADMIN_API_TOKEN", "another token");
            ("RAILWAY_TOKEN", "x")])
        (Sample.answering Sample.r200) [] /\
  serve_health (load_settings Deploy.full) (Sample.answering Sample.r200) []
    = serve_health
        (load_settings
           [("GUARDIAN_SECRET", "another secret");
            ("ADMIN_API_TOKEN", "another token");
            ("RAILWAY_TOKEN", "x")])
        (Sample.answering Sample.r200) [].
Proof.
  apply (get_routes_hide_credentials (load_settings Deploy.full)
           (load_settings
              [("GUARDIAN_SECRET", "another secret");
               ("ADMIN_API_TOKEN", "another token");
               ("RAILWAY_TOKEN", "x")])
           (Sample.answering Sample.r200) []); reflexivity.
Defined.

(** X14.  GET /health answers 200 without touching the relay, and its
    flags follow the process environment: a token or secret counts as
    configured when its variable is set to a non-empty value, while the
    upstream URL also counts as configured when its variable is not set
    at all, because the built-in default then applies. *)
Theorem health_flags_from_environ (e : environ) (w : env)
    (log : list event) :
  let set_nonempty k :=
    match environ_get e k with
    | Some v => negb (v =? "")%string
    | None => false
    end in
  let r := fst (serve_health (load_settings e) w log) in
  status r = 200 /\
  snd (serve_health (load_settings e) w log) = log /\
  health_flag r "withings_mcp_configured" =
    Some (PyBool match environ_get e "WITHINGS_MCP_URL" with
                 | Some v => negb (v =? "")%string
                 | None => true
                 end) /\
  health_flag r "admin_token_configured" =
    Some (PyBool (set_nonempty "ADMIN_API_TOKEN")) /\
  health_flag r "guardian_secret_configured" =
    Some (PyBool (set_nonempty "GUARDIAN_SECRET")) /\
  health_flag r "railway_token_configured" =
    Some (PyBool (set_nonempty "RAILWAY_TOKEN")).
Proof.
  unfold serve_health, health, health_flag, load_settings, getenv, ret,
    truthy_str.
  simpl.
  repeat split;
    match goal with
    | |- context [environ_get e ?k] => destruct (environ_get e k); reflexivity
    end.
Qed.

(** A deployment whose environment leaves GUARDIAN_SECRET unset or empty
    authorizes every caller. *)
Lemma no_secret_in_environ_authorizes (e : environ) (header : option string) :
  environ_get e "GUARDIAN_SECRET" = None \/
  environ_get e "GUARDIAN_SECRET" = Some "" ->
  authorized (core (load_settings e)) header.
Proof.
  intros H. left. unfold load_settings, getenv. simpl.
  destruct H as [-> | ->]; reflexivity.
Qed.

(** X15.  A deployment started without GUARDIAN_SECRET, or with it set
    to the empty string, is open: every POST to either route, with any
    header or none, enters the relay once and is never answered 401. *)
Theorem unset_secret_opens_routes (e : environ) (w : env) (req : request)
    (hg ha : option string) (log : list event) :
  environ_get e "GUARDIAN_SECRET" = None \/
  environ_get e "GUARDIAN_SECRET" = Some "" ->
  let cfg := core (load_settings e) in
  status (fst (serve_refresh_needed cfg w req hg log)) <> 401 /\
  status (fst (serve_manual_refresh cfg w ha log)) <> 401 /\
  relay_count (snd (serve_refresh_needed cfg w req hg log))
    = S (relay_count log) /\
  relay_count (snd (serve_manual_refresh cfg w ha log))
    = S (relay_count log).
Proof.
  intros H cfg.
  pose proof (no_secret_in_environ_authorizes e hg H) as Hg.
  pose proof (no_secret_in_environ_authorizes e ha H) as Ha.
  fold cfg in Hg, Ha.
  destruct (routes_status_by_relay cfg w req hg ha log Hg Ha)
    as (d & b & Hd & Hb & Hsg & Hsa).
  rewrite Hsg, Hsa.
  assert (Hst : (if b && serialisable (dict_get d "expires_at")
                 then 200 else 500) <> 401).
  { destruct (b && serialisable (dict_get d "expires_at")); discriminate. }
  split; [exact Hst|]. split; [exact Hst|].
  rewrite snd_serve_refresh_needed, snd_serve_manual_refresh.
  unfold refresh_needed, manual_refresh.
  rewrite (snd_refresh_needed_with _ _ _ req _ log Hg).
  rewrite (snd_manual_refresh_with _ _ _ _ log Ha).
  destruct (relay_returns cfg w log) as (d' & calls & Hr & Hi & Hc).
  rewrite Hr.
  assert (Hn : relay_count (log ++ RelayInvoked :: calls) = S (relay_count log)).
  { rewrite relay_count_app. simpl. destruct Hc as [-> | ->]; simpl; lia. }
  split; exact Hn.
Qed.

Lemma unset_secret_opens_routes_witness :
  status (fst (serve_refresh_needed (core (load_settings Deploy.url_only))
                 (Sample.answering Sample.r200) Sample.no_peer None []))
    <> 401 /\
  relay_count
    (snd (serve_manual_refresh (core (load_settings Deploy.url_only))
            (Sample.answering Sample.r200) (Some "anything") []))
    = 1%nat.
Proof.
  destruct (unset_secret_opens_routes Deploy.url_only
              (Sample.answering Sample.r200) Sample.no_peer None
              (Some "anything") []) as (H1 & _ & _ & H2).
  - left. reflexivity.
  - split; [exact H1 | exact H2].
Defined.

(** X16.  A deployment that sets an admin token but no WITHINGS_MCP_URL
    sends its refresh to the built-in production URL, with the admin
    token as the only header. *)
Theorem default_upstream_url (e : environ) (t : string) (w : env)
    (header : option string) (log : list event) :
  environ_get e "WITHINGS_MCP_URL" = None ->
  environ_get e "ADMIN_API_TOKEN" = Some t ->
  t <> "" ->
  authorized (core (load_settings e)) header ->
  snd (serve_manual_refresh (core (load_settings e)) w header log) =
    (log ++
     [RelayInvoked;
      OutboundPost
        {| url := "https://withings-mcp-production.up.railway.app/admin/token/refresh";
           headers := [("X-Admin-Token", t)];
           timeout := 30 |}])%list.
Proof.
  intros Hu Ht Hne Ha.
  rewrite snd_serve_manual_refresh. unfold manual_refresh.
  rewrite (snd_manual_refresh_with _ _ _ _ log Ha).
  assert (Htok : ADMIN_API_TOKEN (core (load_settings e)) <> "").
  { unfold load_settings, getenv. simpl. rewrite Ht. exact Hne. }
  rewrite (relay_run_token _ w log Htok).
  unfold refresh_call, load_settings, getenv. simpl. rewrite Hu, Ht.
  reflexivity.
Qed.

Lemma default_upstream_url_witness :
  snd (serve_manual_refresh
         (core (load_settings [("ADMIN_API_TOKEN", "admin-token")]))
         Sample.unreachable None []) =
    [RelayInvoked;
     OutboundPost
       {| url := "https://withings-mcp-production.up.railway.app/admin/token/refresh";
          headers := [("X-Admin-Token", "admin-token")];
          timeout := 30 |}].
Proof.
  apply (default_upstream_url [("ADMIN_API_TOKEN", "admin-token")]
           "admin-token" Sample.unreachable None []).
  - reflexivity.
  - reflexivity.
  - discriminate.
  - left. reflexivity.
Defined.

(** X17.  Setting WITHINGS_MCP_URL to the empty string switches the
    built-in default off: /health then reports the upstream as not
    configured, and yet the relay has no guard on the URL and still
    hands the client a POST, to the bare path. *)
Theorem blank_upstream_url_still_posts (e : environ) (t : string) (w : env)
    (header : option string) (log : list event) :
  environ_get e "WITHINGS_MCP_URL" = Some "" ->
  environ_get e "ADMIN_API_TOKEN" = Some t ->
  t <> "" ->
  authorized (core (load_settings e)) header ->
  health_flag (fst (serve_health (load_settings e) w log))
    "withings_mcp_configured" = Some (PyBool false) /\
  snd (serve_manual_refresh (core (load_settings e)) w header log) =
    (log ++
     [RelayInvoked;
      OutboundPost
        {| url := "/admin/token/refresh";
           headers := [("X-Admin-Token", t)];
           timeout := 30 |}])%list.
Proof.
  intros Hu Ht Hne Ha. split.
  - unfold serve_health, health, health_flag, load_settings, getenv, ret.
    simpl. rewrite Hu. reflexivity.
  - rewrite snd_serve_manual_refresh. unfold manual_refresh.
    rewrite (snd_manual_refresh_with _ _ _ _ log Ha).
    assert (Htok : ADMIN_API_TOKEN (core (load_settings e)) <> "").
    { unfold load_settings, getenv. simpl. rewrite Ht. exact Hne. }
    rewrite (relay_run_token _ w log Htok).
    unfold refresh_call, load_settings, getenv. simpl. rewrite Hu, Ht.
    reflexivity.
Qed.

Lemma blank_upstream_url_still_posts_witness :
  health_flag
    (fst (serve_health (load_settings Deploy.blank_url) Sample.unreachable []))
    "withings_mcp_configured" = Some (PyBool false) /\
  snd (serve_manual_refresh (core (load_settings Deploy.blank_url))
         Sample.unreachable None []) =
    [RelayInvoked;
     OutboundPost
       {| url := "/admin/token/refresh";
          headers := [("X-Admin-Token", "admin-token")];
          timeout := 30 |}].
Proof.
  apply (blank_upstream_url_still_posts Deploy.blank_url "admin-token"
           Sample.unreachable None []).
  - reflexivity.
  - reflexivity.
  - discriminate.
  - left. reflexivity.
Defined.

(** The relay's result does not depend on what was done before. *)
Lemma relay_result_fixed (cfg : config) (w : env) :
  exists d, forall log, fst (refresh_withings_token cfg w log) = Ok d.
Proof.
  destruct (String.eqb_spec (ADMIN_API_TOKEN cfg) "") as [H | H].
  - eexists. intros log. rewrite (relay_run_no_token cfg w log H). reflexivity.
  - eexists. intros log. rewrite (relay_run_token cfg w log H). reflexivity.
Qed.

(** X18.  No state leaks from one request to the next: the response of
    either POST route is the same whatever requests were served before,
    so a request repeated against the same upstream and clock gets the
    same answer again. *)
Theorem routes_history_independent (cfg : config) (w : env) (req : request)
    (hg ha : option string) (log1 log2 : list event) :
  fst (serve_refresh_needed cfg w req hg log1)
    = fst (serve_refresh_needed cfg w req hg log2) /\
  fst (serve_manual_refresh cfg w ha log1)
    = fst (serve_manual_refresh cfg w ha log2) /\
  fst (serve_manual_refresh cfg w ha
         (snd (serve_manual_refresh cfg w ha log1)))
    = fst (serve_manual_refresh cfg w ha log1).
Proof.
  destruct (relay_result_fixed cfg w) as [d Hd].
  assert (Hg : forall l1 l2,
             fst (serve_refresh_needed cfg w req hg l1)
             = fst (serve_refresh_needed cfg w req hg l2)).
  { intros l1 l2. rewrite !fst_serve_refresh_needed. f_equal.
    unfold refresh_needed.
    destruct (authorized_dec cfg hg) as [Ha | [Hs Hh]].
    - rewrite !(refresh_needed_with_run _ _ _ req _ _ Ha).
      pose proof (Hd l1) as H1. pose proof (Hd l2) as H2.
      destruct (refresh_withings_token cfg w l1) as [r1 l1'].
      destruct (refresh_withings_token cfg w l2) as [r2 l2'].
      simpl in H1, H2. subst r1 r2.
      destruct (lookup "success" d) as [v|]; [|reflexivity].
      destruct (truthy v); [reflexivity|].
      destruct (serialisable (dict_get d "error")); reflexivity.
    - rewrite !(refresh_needed_with_rejected _ _ _ _ _ _ Hs Hh). reflexivity. }
  assert (Hm : forall l1 l2,
             fst (serve_manual_refresh cfg w ha l1)
             = fst (serve_manual_refresh cfg w ha l2)).
  { intros l1 l2. rewrite !fst_serve_manual_refresh. f_equal.
    unfold manual_refresh.
    destruct (authorized_dec cfg ha) as [Ha | [Hs Hh]].
    - rewrite !(manual_refresh_with_run _ _ _ _ _ Ha).
      pose proof (Hd l1) as H1. pose proof (Hd l2) as H2.
      destruct (refresh_withings_token cfg w l1) as [r1 l1'].
      destruct (refresh_withings_token cfg w l2) as [r2 l2'].
      simpl in H1, H2. subst r1 r2.
      destruct (lookup "success" d) as [v|]; [|reflexivity].
      destruct (truthy v); [reflexivity|].
      destruct (serialisable (dict_get d "error")); reflexivity.
    - rewrite !(manual_refresh_with_rejected _ _ _ _ _ Hs Hh). reflexivity. }
  split; [apply Hg|]. split; apply Hm.
Qed.
